(** * Markdown filters of nbconvert: a shallow embedding

    Embedding of [IPython/nbconvert/filters/markdown.py].  The module picks a
    backend (node.js running [marked.js], the in-process [mistune] parser, or
    [pandoc]), runs it and normalises its output.  Everything outside the
    module (the operating system, the child processes, mistune, pygments) is
    an environment [Env] of oracles; the module-level global [_node] and the
    trace of interactions with the environment form the program state. *)

From Stdlib Require Import String Ascii List ZArith Bool Arith Lia.
From Stdlib Require Import Strings.Byte Decimal DecimalString DecimalNat.
Import ListNotations.
Local Open Scope string_scope.

(** ** Python string methods used by the module *)

Module PyStr.

(** The character ['\n']. *)
Definition nl : ascii := "010"%char.

(** [s.lstrip(c)] for a one-character set [c]: drops every leading [c]. *)
Fixpoint lstrip (c : ascii) (s : string) : string :=
  match s with
  | String a s' => if Ascii.eqb a c then lstrip c s' else s
  | EmptyString => EmptyString
  end.

(** [s.rstrip(c)] for a one-character set [c]: drops every trailing [c]. *)
Fixpoint rstrip (c : ascii) (s : string) : string :=
  match s with
  | EmptyString => EmptyString
  | String a s' =>
      match rstrip c s' with
      | EmptyString => if Ascii.eqb a c then EmptyString else String a EmptyString
      | r => String a r
      end
  end.

(** [sep.join(l)] on a list of strings. *)
Fixpoint join (sep : string) (l : list string) : string :=
  match l with
  | [] => ""
  | [x] => x
  | x :: l' => x ++ sep ++ join sep l'
  end.

(** [n] copies of the character [c]. *)
Fixpoint replicate (n : nat) (c : ascii) : string :=
  match n with
  | O => ""
  | S n' => String c (replicate n' c)
  end.

(** [s.endswith(c)] for a one-character [c]. *)
Fixpoint endswith (s : string) (c : ascii) : bool :=
  match s with
  | EmptyString => false
  | String a EmptyString => Ascii.eqb a c
  | String _ s' => endswith s' c
  end.

(** [s[:-1]]: the string without its last character. *)
Fixpoint chop (s : string) : string :=
  match s with
  | EmptyString => EmptyString
  | String _ EmptyString => EmptyString
  | String a s' => String a (chop s')
  end.

(** The specification's reading of the trimming in the node renderer:
    exactly one trailing [c] removed, if there is one. *)
Definition strip_one (c : ascii) (s : string) : string :=
  if endswith s c then chop s else s.

(** [c not in s]. *)
Fixpoint no_char (c : ascii) (s : string) : bool :=
  match s with
  | EmptyString => true
  | String a s' => negb (Ascii.eqb a c) && no_char c s'
  end.

(** [needle in s]. *)
Definition contains (needle s : string) : Prop :=
  exists pre post, s = pre ++ needle ++ post.

End PyStr.


(** ** Values, exceptions and outcomes *)

(** The Python values the global [_node] and the command list hold. *)
Inductive pyval : Type :=
| PyNone
| PyBool (b : bool)
| PyStr (s : string).

(** Truth value of a Python object in an [if]. *)
Definition truthy (v : pyval) : bool :=
  match v with
  | PyNone => false
  | PyBool b => b
  | PyStr s => negb (String.eqb s "")
  end.

(** The exceptions that can cross the module.  [NodeJSMissing] is the class
    the module declares; [OSError], [TypeError], [AttributeError] and
    [LookupError] are Python's; [ClassNotFound] is pygments';
    [PandocMissing] and [ConversionException] belong to the pandoc helper. *)
Inductive exn : Type :=
| OSError (strerror : string)
| TypeError
| AttributeError
| LookupError
| ClassNotFound (lang : string)
| ConversionException (msg : string)
| PandocMissing
| NodeJSMissing (msg : string).

(** The error kinds the specification names, and the exception classes that
    carry them. *)
Inductive error_kind : Type :=
| BackendUnavailable
| ConversionError
| UnknownLanguage
| OtherError.

Definition kind_of (e : exn) : error_kind :=
  match e with
  | NodeJSMissing _ => BackendUnavailable
  | PandocMissing => BackendUnavailable
  | ConversionException _ => ConversionError
  | ClassNotFound _ => UnknownLanguage
  | OSError _ | TypeError | AttributeError | LookupError => OtherError
  end.

Inductive outcome (A : Type) : Type :=
| Return (a : A)
| Raise (e : exn).
Arguments Return {A} a.
Arguments Raise {A} e.

(** ** The environment *)

Definition bytes := list byte.

(** What the program does to the outside world, in order. *)
Inductive event : Type :=
| EvRun (argv : list string)
| EvWarn (msg : string)
| EvPopen (argv : list string)
| EvCommunicate (input : bytes)
| EvPandoc (source fmt to : string) (extra_args : list string).

(** A child process as [Popen] returns it: [communicate] feeds the input and
    gives what the child wrote to its standard output, together with the
    exit status the child ended with. *)
Record process : Type := mkProcess {
  communicate_out : bytes -> bytes;
  returncode : bytes -> Z
}.

(** A token of the mistune parser: a code block with its language tag, or
    anything else, already rendered by the stock renderer. *)
Inductive token : Type :=
| TCode (code : string) (lang : option string)
| TOther (html : string).

(** The mistune library, when the import succeeded. *)
Record Mistune : Type := mkMistune {
  md_parse : string -> list token;
  md_escape : string -> string
}.

Inductive lexer : Type := Lexer (name : string) (stripall : bool).
Inductive formatter : Type := HtmlFormatter.

(** The oracles take the trace so far, so the world may answer differently
    at different times. *)
Record Env : Type := mkEnv {
  (* os.path.join(os.path.dirname(__file__), "marked.js") *)
  marked : string;
  (* the module-level name mistune: None when the import failed *)
  mistune : option Mistune;
  (* IPython.utils.process.get_output_error_code: OSError or (out, err, code) *)
  get_output_error_code : list event -> list string -> string + (string * string * Z);
  (* the operating system starting a child: OSError or the child *)
  spawn : list event -> list string -> string + process;
  (* IPython.utils.py3compat.cast_bytes; None for an unknown encoding *)
  cast_bytes : string -> string -> option bytes;
  (* TextIOWrapper(BytesIO(b), encoding, 'replace').read() *)
  decode_replace : string -> bytes -> option string;
  (* pygments.lexers.get_lexer_by_name: None when no lexer has the name *)
  lexer_known : string -> bool;
  (* pygments.highlight *)
  highlight : string -> lexer -> formatter -> string;
  (* the pandoc executable: None when it is not installed, otherwise
     exit status, standard output and standard error *)
  pandoc_tool : list event -> list string -> string -> option (Z * string * string);
  (* what the version comparison answers outside MAJOR.MINOR.PATCH strings *)
  loose_version_ge : string -> string -> bool
}.

(** ** Program state and the state-and-exception monad *)

Record state : Type := mkState {
  _node : pyval;
  trace : list event
}.

Definition M (A : Type) : Type := state -> outcome A * state.

Definition ret {A} (a : A) : M A := fun s => (Return a, s).
Definition raise {A} (e : exn) : M A := fun s => (Raise e, s).
Definition bind {A B} (m : M A) (k : A -> M B) : M B :=
  fun s => match m s with
           | (Return a, s') => k a s'
           | (Raise e, s') => (Raise e, s')
           end.

Notation "x <- m ;; k" := (bind m (fun x => k))
  (at level 61, m at next level, right associativity).
Notation "m ;;; k" := (bind m (fun _ => k))
  (at level 61, right associativity).

Definition get_node : M pyval := fun s => (Return (_node s), s).
Definition set_node (v : pyval) : M unit :=
  fun s => (Return tt, mkState v (trace s)).
Definition emit (e : event) : M unit :=
  fun s => (Return tt, mkState (_node s) (trace s ++ [e])%list).
Definition history : M (list event) := fun s => (Return (trace s), s).
Definition lift {A} (o : outcome A) : M A := fun s => (o, s).

(** [try: body  except OSError as e: handler e]. *)
Definition try_except_OSError {A} (body : M A) (handler : string -> M A) : M A :=
  fun s => match body s with
           | (Raise (OSError e), s') => handler e s'
           | r => r
           end.

(** ** Version strings MAJOR.MINOR.PATCH *)

Module Version.

Definition t : Type := (nat * nat * nat)%type.

(** The pieces of [s] between its dots. *)
Fixpoint split_dots (s : string) : list string :=
  match s with
  | EmptyString => [""]
  | String a s' =>
      if Ascii.eqb a "."%char then "" :: split_dots s'
      else match split_dots s' with
           | x :: l => String a x :: l
           | [] => [String a ""]
           end
  end.

Definition parse_nat (s : string) : option nat :=
  option_map Nat.of_uint (NilZero.uint_of_string s).

Definition parse (v : string) : option t :=
  match split_dots v with
  | [a; b; c] =>
      match parse_nat a, parse_nat b, parse_nat c with
      | Some x, Some y, Some z => Some (x, y, z)
      | _, _, _ => None
      end
  | _ => None
  end.

(** Precedence of versions: major, then minor, then patch. *)
Definition ge (v w : t) : bool :=
  let '(a, b, c) := v in
  let '(a', b', c') := w in
  ((a' <? a) || ((a =? a') && ((b' <? b) || ((b =? b') && (c' <=? c)))))%nat.

Definition show_nat (n : nat) : string :=
  NilZero.string_of_uint (Nat.to_uint n).

Definition show (v : t) : string :=
  let '(a, b, c) := v in
  show_nat a ++ "." ++ show_nat b ++ "." ++ show_nat c.

End Version.

(** ** The module *)

Section Filters.

Variable env : Env.

(** *** Calls into the environment *)

Definition call_get_output_error_code (argv : list string)
  : M (string * string * Z) :=
  emit (EvRun argv) ;;;
  h <- history ;;
  match get_output_error_code env h argv with
  | inl e => raise (OSError e)
  | inr r => ret r
  end.

(** The strings of a command list, when all its items are strings. *)
Fixpoint strs_of (l : list pyval) : option (list string) :=
  match l with
  | [] => Some []
  | PyStr x :: l' => option_map (cons x) (strs_of l')
  | _ :: _ => None
  end.

(** [subprocess.Popen(command, stdin=PIPE, stdout=PIPE)]: a command item
    that is not a string is a [TypeError]; a child that cannot be started
    is an [OSError]. *)
Definition Popen (command : list pyval) : M process :=
  match strs_of command with
  | None => raise TypeError
  | Some argv =>
      emit (EvPopen argv) ;;;
      h <- history ;;
      match spawn env h argv with
      | inl e => raise (OSError e)
      | inr p => ret p
      end
  end.

(** [out, _ = p.communicate(input)]. *)
Definition communicate (p : process) (input : bytes) : M bytes :=
  emit (EvCommunicate input) ;;;
  ret (communicate_out p input).

(** [warnings.warn(msg)]. *)
Definition warn (msg : string) : M unit := emit (EvWarn msg).

(** [sep.join(command)]: a [TypeError] on an item that is not a string. *)
Definition py_join (sep : string) (command : list pyval) : outcome string :=
  match strs_of command with
  | None => Raise TypeError
  | Some l => Return (PyStr.join sep l)
  end.

Definition opt_or_LookupError {A} (o : option A) : M A :=
  match o with
  | Some a => ret a
  | None => raise LookupError
  end.

(** Modelled from the spec: [check_version] of [IPython.utils.version] is
    not among the sources.  The specification has it "compare against the
    minimum-supported version using semantic-version ordering" and return
    available "iff the parsed version is >= minimum".  On strings that are
    not MAJOR.MINOR.PATCH the specification is silent and the answer is
    left to the environment. *)
Definition check_version (v check : string) : bool :=
  match Version.parse v, Version.parse check with
  | Some a, Some b => Version.ge a b
  | _, _ => loose_version_ge env v check
  end.

(** Modelled from the spec: [pandoc] of [IPython.nbconvert.utils.pandoc]
    is not among the sources.  The specification has the tool "invoked as
    <tool> <input-format> <output-format> [extra args], fed source text",
    returning the converted text, failing with BackendUnavailable "if the
    tool is not installed" and with ConversionError "if the tool exits
    non-zero, surfacing its stderr". *)
Definition pandoc (source fmt to : string) (extra_args : list string)
  : M string :=
  emit (EvPandoc source fmt to extra_args) ;;;
  h <- history ;;
  match pandoc_tool env h (fmt :: to :: extra_args) source with
  | None => raise PandocMissing
  | Some (code, out, err) =>
      if (code =? 0)%Z then ret out else raise (ConversionException err)
  end.

(** *** markdown2latex, markdown2rst, markdown2html_pandoc *)

Definition markdown2latex (source : string) : M string :=
  pandoc source "markdown" "latex" [].

Definition markdown2rst (source : string) : M string :=
  pandoc source "markdown" "rst" [].

Definition markdown2html_pandoc (source : string) : M string :=
  pandoc source "markdown" "html" ["--mathjax"].

(** *** MyRenderer.block_code and markdown2html_mistune *)

(** [not lang] for a language tag that is [None] or a string. *)
Definition not_lang (lang : option string) : bool :=
  match lang with
  | None => true
  | Some l => String.eqb l ""
  end.

(** [get_lexer_by_name(lang, stripall=...)]: raises [ClassNotFound] when
    no lexer has that name. *)
Definition get_lexer_by_name (lang : string) (stripall : bool)
  : outcome lexer :=
  if lexer_known env lang then Return (Lexer lang stripall)
  else Raise (ClassNotFound lang).

Definition block_code (lib : Mistune) (code : string) (lang : option string)
  : outcome string :=
  if not_lang lang then
    Return (String PyStr.nl "<pre><code>" ++ md_escape lib code
            ++ "</code></pre>" ++ String PyStr.nl "")
  else
    match get_lexer_by_name (match lang with Some l => l | None => "" end) true with
    | Raise e => Raise e
    | Return lx => Return (highlight env code lx HtmlFormatter)
    end.

(** What the renderer makes of one token: a code block goes through
    [block_code]. *)
Definition render_token (lib : Mistune) (t : token) : outcome string :=
  match t with
  | TCode code lang => block_code lib code lang
  | TOther html => Return html
  end.

(** [Markdown(renderer=MyRenderer()).render]: the output is the
    concatenation of the rendered tokens; an exception of the renderer ends
    the rendering. *)
Fixpoint render_tokens (lib : Mistune) (toks : list token) : outcome string :=
  match toks with
  | [] => Return ""
  | t :: rest =>
      match render_token lib t with
      | Raise e => Raise e
      | Return h =>
          match render_tokens lib rest with
          | Raise e => Raise e
          | Return r => Return (h ++ r)
          end
      end
  end.

(** [mistune.Markdown] on the name [mistune] bound to [None] is an
    [AttributeError]. *)
Definition markdown2html_mistune (source : string) : M string :=
  match mistune env with
  | None => raise AttributeError
  | Some lib => lift (render_tokens lib (md_parse lib source))
  end.

(** *** markdown2html_marked *)

Definition markdown2html_marked (source : string) (encoding : string)
  : M string :=
  node <- get_node ;;
  let command := [node; PyStr (marked env)] in
  p <- try_except_OSError (Popen command)
         (fun e =>
            cmd <- lift (py_join " " command) ;;
            raise (NodeJSMissing
                     ("The command '" ++ cmd ++ "' returned an error: " ++ e
                      ++ "." ++ String PyStr.nl ""
                      ++ "Please check that Node.js is installed."))) ;;
  input <- opt_or_LookupError (cast_bytes env source encoding) ;;
  out <- communicate p input ;;
  out <- opt_or_LookupError (decode_replace env encoding out) ;;
  ret (PyStr.rstrip PyStr.nl out).

(** *** _verify_node *)

Definition _verify_node (cmd : string) : M bool :=
  r <- try_except_OSError
         (x <- call_get_output_error_code [cmd; "--version"] ;; ret (Some x))
         (fun _ => ret None) ;;
  match r with
  | None => ret false
  | Some (out, err, return_code) =>
      if negb (return_code =? 0)%Z then ret false
      else ret (check_version (PyStr.lstrip "v" out) "0.9.12")
  end.

(** *** markdown2html *)

Definition fallback_warning : string :=
  "Node.js 0.9.12 or later wasn't found." ++ String PyStr.nl ""
  ++ "Nbconvert will try to use Pandoc instead.".

Definition markdown2html (source : string) : M string :=
  n <- get_node ;;
  (match n with
   | PyNone =>
       set_node (PyStr "nodejs") ;;;
       ok <- _verify_node "nodejs" ;;
       if negb ok then
         set_node (PyStr "node") ;;;
         ok' <- _verify_node "node" ;;
         if negb ok' then
           warn fallback_warning ;;;
           set_node (PyBool false)
         else ret tt
       else ret tt
   | _ => ret tt
   end) ;;;
  n <- get_node ;;
  if truthy n then markdown2html_marked source "utf-8"
  else
    match mistune env with
    | Some _ => markdown2html_mistune source
    | None => markdown2html_pandoc source
    end.

End Filters.


(** ** Processes and what can be observed of them *)

(** A process calling [markdown2html] on one source after the other; an
    exception of one call does not end the process. *)
Fixpoint run_calls (env : Env) (sources : list string) (s : state) : state :=
  match sources with
  | [] => s
  | src :: rest => run_calls env rest (snd (markdown2html env src s))
  end.

(** How many times the trace probed a command with [--version]. *)
Fixpoint probes (t : list event) : nat :=
  match t with
  | [] => 0
  | EvRun _ :: t' => S (probes t')
  | _ :: t' => probes t'
  end.

(** How many warnings the trace holds. *)
Fixpoint warnings (t : list event) : nat :=
  match t with
  | [] => 0
  | EvWarn _ :: t' => S (warnings t')
  | _ :: t' => warnings t'
  end.

(** The contract the specification gives a conversion [f] backed by the
    document-conversion tool with target format [to] and extra arguments
    [extra_args]: [f] is the call of the tool from markdown to [to]; it
    fails with [PandocMissing] when the tool is not installed, returns the
    output of the tool when it exits with status 0, and fails with
    [ConversionException] carrying the standard error otherwise. *)
Definition pandoc_contract (f : Env -> string -> M string)
           (to : string) (extra_args : list string) : Prop :=
  forall (env : Env) (source : string) (s : state),
    let argv := "markdown" :: to :: extra_args in
    let h := (trace s ++ [EvPandoc source "markdown" to extra_args])%list in
    f env source s = pandoc env source "markdown" to extra_args s /\
    (pandoc_tool env h argv source = None ->
     fst (f env source s) = Raise PandocMissing) /\
    (forall out err,
        pandoc_tool env h argv source = Some (0%Z, out, err) ->
        fst (f env source s) = Return out) /\
    (forall code out err,
        pandoc_tool env h argv source = Some (code, out, err) ->
        code <> 0%Z ->
        fst (f env source s) = Raise (ConversionException err)).

(** ** Concrete environments, for running the functions *)

Module Sample.

Definition nl : string := String PyStr.nl "".

Definition marked_js : string := "/filters/marked.js".

(** A toy escape: [<] becomes [&lt;]. *)
Fixpoint escape (s : string) : string :=
  match s with
  | EmptyString => EmptyString
  | String a s' =>
      if Ascii.eqb a "<"%char then "&lt;" ++ escape s'
      else String a (escape s')
  end.

Definition fence : string := "```".

(** Three documents: a code block without a tag, one tagged [python], one
    tagged [nolang]. *)
Definition untagged_doc : string := fence ++ nl ++ "a<b" ++ nl ++ fence.
Definition python_doc : string := fence ++ "python" ++ nl ++ "a<b" ++ nl ++ fence.
Definition nolang_doc : string := fence ++ "nolang" ++ nl ++ "a<b" ++ nl ++ fence.

(** A toy parser knowing these documents. *)
Definition parse (src : string) : list token :=
  if String.eqb src untagged_doc then [TCode "a<b" None]
  else if String.eqb src python_doc then [TCode "a<b" (Some "python")]
  else if String.eqb src nolang_doc then [TCode "a<b" (Some "nolang")]
  else [TOther ("<p>" ++ src ++ "</p>")].

Definition lib : Mistune := mkMistune parse escape.

(** A child that ignores its input, writes [out] and exits with [code]. *)
Definition child (out : string) (code : Z) : process :=
  mkProcess (fun _ => list_byte_of_string out) (fun _ => code).

(** A world where [node --version] prints [version] under the command
    names in [nodes], the renderer prints [html], and pandoc answers
    [doc]. *)
Definition world (nodes : list string) (version : string)
           (renderer : string + process) (mist : option Mistune)
           (doc : option (Z * string * string)) : Env :=
  {| marked := marked_js;
     mistune := mist;
     get_output_error_code := fun _ argv =>
       match argv with
       | cmd :: _ =>
           if existsb (String.eqb cmd) nodes then inr (version, "", 0%Z)
           else inl "[Errno 2] No such file or directory"
       | [] => inl "[Errno 2] No such file or directory"
       end;
     spawn := fun _ _ => renderer;
     cast_bytes := fun s _ => Some (list_byte_of_string s);
     decode_replace := fun _ b => Some (string_of_list_byte b);
     lexer_known := fun l => String.eqb l "python";
     highlight := fun code lx _ => "<div class=highlight>" ++ code ++ "</div>";
     pandoc_tool := fun _ _ _ => doc;
     loose_version_ge := fun _ _ => false |}.

Definition start : state := mkState PyNone [].

(** The state once [node] has been selected. *)
Definition with_node : state := mkState (PyStr "node") [].

Definition h1 : string := "<h1>Hi</h1>".

(** Node 0.10.2 under the name [node]; the renderer prints the heading
    followed by two newlines and exits with status 3. *)
Definition two_newlines : Env :=
  world ["node"] "v0.10.2" (inr (child (h1 ++ nl ++ nl) 3)) (Some lib) None.

(** No node at all, mistune installed, pandoc absent. *)
Definition no_node : Env :=
  world [] "" (inl "[Errno 2] No such file or directory") (Some lib) None.

(** Nothing installed but pandoc, which answers [out] with status 0. *)
Definition pandoc_only (out : string) : Env :=
  world [] "" (inl "[Errno 2] No such file or directory") None
        (Some (0%Z, out, "")).

(** Pandoc installed and failing with status 2. *)
Definition pandoc_failing : Env :=
  world [] "" (inl "[Errno 2] No such file or directory") None
        (Some (2%Z, "", "pandoc: unknown option")).

(** Nothing installed. *)
Definition bare : Env :=
  world [] "" (inl "[Errno 2] No such file or directory") None None.

End Sample.

(** * Properties *)

(** ** Trimming *)

Module PyStrFacts.
Import PyStr.

Lemma app_empty_r (s : string) : s ++ "" = s.
Proof. induction s; simpl; congruence. Qed.

Lemma app_assoc (a b c : string) : (a ++ b) ++ c = a ++ b ++ c.
Proof. induction a; simpl; congruence. Qed.

Lemma rstrip_replicate (c : ascii) (k : nat) : rstrip c (replicate k c) = "".
Proof.
  induction k as [|k IH]; simpl; [reflexivity|].
  now rewrite IH, Ascii.eqb_refl.
Qed.

Lemma rstrip_decompose (c : ascii) (s : string) :
  exists k, s = rstrip c s ++ replicate k c.
Proof.
  induction s as [|a s [k IH]]; simpl.
  - now exists 0.
  - destruct (rstrip c s) as [|b r] eqn:E.
    + destruct (Ascii.eqb_spec a c) as [->|_].
      * exists (S k). simpl. now f_equal.
      * exists k. simpl. now f_equal.
    + exists k. simpl. now f_equal.
Qed.

Lemma rstrip_no_trailing (c : ascii) (s : string) :
  endswith (rstrip c s) c = false.
Proof.
  induction s as [|a s IH]; simpl; [reflexivity|].
  destruct (rstrip c s) as [|b r] eqn:E.
  - destruct (Ascii.eqb a c) eqn:Ea; simpl; [reflexivity | exact Ea].
  - exact IH.
Qed.

Lemma rstrip_app_replicate (c : ascii) (h : string) (k : nat) :
  endswith h c = false -> rstrip c (h ++ replicate k c) = h.
Proof.
  induction h as [|a h IH]; intros H.
  - apply rstrip_replicate.
  - destruct h as [|b h'].
    + simpl in *. now rewrite rstrip_replicate, H.
    + change (rstrip c (String a (String b h' ++ replicate k c))
              = String a (String b h')).
      cbn [rstrip]. fold (rstrip c (String b h' ++ replicate k c)).
      rewrite IH by exact H. reflexivity.
Qed.

Lemma rstrip_fixed (c : ascii) (s : string) :
  endswith s c = false -> rstrip c s = s.
Proof.
  intros H. rewrite <- (app_empty_r s) at 1.
  exact (rstrip_app_replicate c s 0 H).
Qed.

End PyStrFacts.

(** ** The node renderer *)

Section MarkedFacts.

Variable env : Env.

(** The message of [NodeJSMissing] for a command line and an OS error. *)
Let missing (cmdline e : string) : string :=
  "The command '" ++ cmdline ++ "' returned an error: " ++ e
  ++ "." ++ String PyStr.nl "" ++ "Please check that Node.js is installed.".

(** One run of [markdown2html_marked] with a command name in [_node],
    step by step. *)
Lemma marked_run (source encoding : string) (s : state) (n : string) :
  _node s = PyStr n ->
  markdown2html_marked env source encoding s =
    let argv := [n; marked env] in
    let s1 := mkState (PyStr n) (trace s ++ [EvPopen argv]) in
    match spawn env (trace s1) argv with
    | inl e => (Raise (NodeJSMissing (missing (n ++ " " ++ marked env) e)), s1)
    | inr p =>
        match cast_bytes env source encoding with
        | None => (Raise LookupError, s1)
        | Some input =>
            let s2 := mkState (PyStr n) (trace s1 ++ [EvCommunicate input]) in
            match decode_replace env encoding (communicate_out p input) with
            | None => (Raise LookupError, s2)
            | Some out => (Return (PyStr.rstrip PyStr.nl out), s2)
            end
        end
    end.
Proof.
  intros Hn.
  unfold markdown2html_marked, bind, get_node, try_except_OSError, Popen.
  rewrite Hn. cbn [strs_of option_map].
  unfold bind, emit, history, raise, ret. cbn [trace _node].
  destruct (spawn env _ _) as [e|p]; cbn.
  - now rewrite Hn.
  - destruct (cast_bytes env source encoding) as [input|]; cbn;
      [|now rewrite Hn].
    destruct (decode_replace env encoding _) as [out|]; cbn;
      now rewrite Hn.
Qed.

(** With anything but a string in [_node] no child is started: the
    command list is refused with a [TypeError]. *)
Lemma marked_run_not_str (source encoding : string) (s : state) :
  (forall n, _node s <> PyStr n) ->
  markdown2html_marked env source encoding s = (Raise TypeError, s).
Proof.
  intros Hn.
  unfold markdown2html_marked, bind, get_node, try_except_OSError, Popen.
  destruct (_node s) as [|b|n] eqn:E; cbn; try reflexivity.
  now elim (Hn n).
Qed.

End MarkedFacts.

(** C1, as amended.  [markdown2html_marked] removes every trailing newline
    of the decoded output [s] of the renderer: its result [r] ends in no
    newline, [s] is [r] followed by newlines only, and [r] is the only
    string so; in particular one trailing newline is removed as a whole and
    a string that ends in no newline is returned as it is. *)
Theorem marked_strips_every_trailing_newline :
  forall (env : Env) (source encoding n : string) (s0 : state)
         (p : process) (input : bytes) (s : string),
    _node s0 = PyStr n ->
    spawn env (trace s0 ++ [EvPopen [n; marked env]]) [n; marked env] = inr p ->
    cast_bytes env source encoding = Some input ->
    decode_replace env encoding (communicate_out p input) = Some s ->
    exists r k,
      fst (markdown2html_marked env source encoding s0) = Return r /\
      s = r ++ PyStr.replicate k PyStr.nl /\
      PyStr.endswith r PyStr.nl = false /\
      (forall h j, PyStr.endswith h PyStr.nl = false ->
                   s = h ++ PyStr.replicate j PyStr.nl -> r = h) /\
      (PyStr.endswith s PyStr.nl = false -> r = s).
Proof.
  intros env source encoding n s0 p input s Hn Hsp Hcb Hdec.
  destruct (PyStrFacts.rstrip_decompose PyStr.nl s) as [k Hk].
  exists (PyStr.rstrip PyStr.nl s), k.
  rewrite (marked_run env source encoding s0 n Hn).
  cbn zeta. cbn [trace]. rewrite Hsp, Hcb, Hdec.
  repeat split.
  - exact Hk.
  - apply PyStrFacts.rstrip_no_trailing.
  - intros h j Hh ->. now apply PyStrFacts.rstrip_app_replicate.
  - apply PyStrFacts.rstrip_fixed.
Qed.

Lemma marked_strips_every_trailing_newline_witness :
  exists r k,
    fst (markdown2html_marked Sample.two_newlines "# Hi" "utf-8" Sample.with_node)
    = Return r /\
    (Sample.h1 ++ Sample.nl ++ Sample.nl) = r ++ PyStr.replicate k PyStr.nl /\
    PyStr.endswith r PyStr.nl = false /\
    (forall h j, PyStr.endswith h PyStr.nl = false ->
                 (Sample.h1 ++ Sample.nl ++ Sample.nl)
                 = h ++ PyStr.replicate j PyStr.nl -> r = h) /\
    (PyStr.endswith (Sample.h1 ++ Sample.nl ++ Sample.nl) PyStr.nl = false ->
     r = Sample.h1 ++ Sample.nl ++ Sample.nl).
Proof.
  apply (marked_strips_every_trailing_newline
           Sample.two_newlines "# Hi" "utf-8" "node" Sample.with_node
           (Sample.child (Sample.h1 ++ Sample.nl ++ Sample.nl) 3)
           (list_byte_of_string "# Hi")); reflexivity.
Defined.

(** C1 as stated fails: on the decoded output ["<h1>Hi</h1>\n\n"] the
    function returns ["<h1>Hi</h1>"], where trimming exactly one newline
    would leave ["<h1>Hi</h1>\n"]. *)
Lemma marked_two_newlines_counterexample :
  decode_replace Sample.two_newlines "utf-8"
    (communicate_out (Sample.child (Sample.h1 ++ Sample.nl ++ Sample.nl) 3)
                     (list_byte_of_string "# Hi"))
  = Some (Sample.h1 ++ Sample.nl ++ Sample.nl) /\
  fst (markdown2html_marked Sample.two_newlines "# Hi" "utf-8" Sample.with_node)
  = Return Sample.h1 /\
  PyStr.strip_one PyStr.nl (Sample.h1 ++ Sample.nl ++ Sample.nl)
  = Sample.h1 ++ Sample.nl /\
  fst (markdown2html_marked Sample.two_newlines "# Hi" "utf-8" Sample.with_node)
  <> Return (PyStr.strip_one PyStr.nl (Sample.h1 ++ Sample.nl ++ Sample.nl)).
Proof.
  repeat split; try reflexivity.
  vm_compute. discriminate.
Qed.

(** C6.  [markdown2html_marked] ends in a BackendUnavailable error exactly
    when the command name in [_node] could not be started; the error is
    [NodeJSMissing] and its message holds the command line tried, the
    message of the operating system and the advice to install Node.js.  A
    child that was started gives its decoded output whatever status [code]
    it exits with. *)
Theorem marked_unavailable_iff_spawn_fails :
  forall (env : Env) (source encoding : string) (s0 : state),
    ((exists ex, fst (markdown2html_marked env source encoding s0) = Raise ex /\
                 kind_of ex = BackendUnavailable)
     <->
     (exists n e, _node s0 = PyStr n /\
                  spawn env (trace s0 ++ [EvPopen [n; marked env]])
                        [n; marked env] = inl e))
    /\
    (forall n e,
        _node s0 = PyStr n ->
        spawn env (trace s0 ++ [EvPopen [n; marked env]]) [n; marked env] = inl e ->
        exists msg,
          fst (markdown2html_marked env source encoding s0)
          = Raise (NodeJSMissing msg) /\
          PyStr.contains (n ++ " " ++ marked env) msg /\
          PyStr.contains e msg /\
          PyStr.contains "Please check that Node.js is installed." msg)
    /\
    (forall n p input out code,
        _node s0 = PyStr n ->
        spawn env (trace s0 ++ [EvPopen [n; marked env]]) [n; marked env] = inr p ->
        cast_bytes env source encoding = Some input ->
        returncode p input = code ->
        decode_replace env encoding (communicate_out p input) = Some out ->
        fst (markdown2html_marked env source encoding s0)
        = Return (PyStr.rstrip PyStr.nl out)).
Proof.
  intros env source encoding s0. split; [split|split].
  - intros (ex & Hex & Hk).
    destruct (_node s0) as [|b|n] eqn:Hn.
    + rewrite marked_run_not_str in Hex by (rewrite Hn; discriminate).
      injection Hex as <-. discriminate.
    + rewrite marked_run_not_str in Hex by (rewrite Hn; discriminate).
      injection Hex as <-. discriminate.
    + exists n. rewrite (marked_run env source encoding s0 n Hn) in Hex.
      cbn zeta in Hex. cbn [trace] in Hex.
      destruct (spawn env _ _) as [e|p]; [now exists e|].
      destruct (cast_bytes env source encoding) as [input|].
      * destruct (decode_replace env encoding _);
          cbn in Hex; [discriminate|].
        injection Hex as <-. discriminate.
      * cbn in Hex. injection Hex as <-. discriminate.
  - intros (n & e & Hn & Hsp).
    rewrite (marked_run env source encoding s0 n Hn).
    cbn zeta. cbn [trace]. rewrite Hsp. eexists. split; reflexivity.
  - intros n e Hn Hsp.
    rewrite (marked_run env source encoding s0 n Hn).
    cbn zeta. cbn [trace]. rewrite Hsp. eexists. split; [reflexivity|].
    repeat split.
    + exists "The command '".
      exists ("' returned an error: " ++ e ++ "." ++ String PyStr.nl ""
              ++ "Please check that Node.js is installed.").
      reflexivity.
    + exists ("The command '" ++ (n ++ " " ++ marked env)
              ++ "' returned an error: ").
      exists ("." ++ String PyStr.nl ""
              ++ "Please check that Node.js is installed.").
      now rewrite !PyStrFacts.app_assoc.
    + exists ("The command '" ++ (n ++ " " ++ marked env)
              ++ "' returned an error: " ++ e ++ "." ++ String PyStr.nl "").
      exists "".
      now rewrite !PyStrFacts.app_assoc, PyStrFacts.app_empty_r.
  - intros n p input out code Hn Hsp Hcb _ Hdec.
    rewrite (marked_run env source encoding s0 n Hn).
    cbn zeta. cbn [trace]. now rewrite Hsp, Hcb, Hdec.
Qed.

Lemma marked_unavailable_iff_spawn_fails_witness :
  (exists msg,
      fst (markdown2html_marked Sample.no_node "# Hi" "utf-8" Sample.with_node)
      = Raise (NodeJSMissing msg) /\
      PyStr.contains ("node" ++ " " ++ marked Sample.no_node) msg /\
      PyStr.contains "[Errno 2] No such file or directory" msg /\
      PyStr.contains "Please check that Node.js is installed." msg)
  /\
  fst (markdown2html_marked Sample.two_newlines "# Hi" "utf-8" Sample.with_node)
  = Return (PyStr.rstrip PyStr.nl (Sample.h1 ++ Sample.nl ++ Sample.nl)).
Proof.
  split.
  - apply (proj1 (proj2 (marked_unavailable_iff_spawn_fails
                           Sample.no_node "# Hi" "utf-8" Sample.with_node))
             "node" "[Errno 2] No such file or directory");
      reflexivity.
  - apply (proj2 (proj2 (marked_unavailable_iff_spawn_fails
                           Sample.two_newlines "# Hi" "utf-8" Sample.with_node))
             "node" (Sample.child (Sample.h1 ++ Sample.nl ++ Sample.nl) 3)
             (list_byte_of_string "# Hi")
             (Sample.h1 ++ Sample.nl ++ Sample.nl) 3%Z);
      reflexivity.
Defined.

(** C10.  While [_node] is still [None], [markdown2html_marked] puts [None]
    first in the command list; creating the process fails with a
    [TypeError] before any child is started, and the [TypeError] leaves the
    function as it is: the handler, which catches [OSError] only, does not
    turn it into [NodeJSMissing]. *)
Theorem marked_before_selection_TypeError :
  forall (env : Env) (source encoding : string) (s0 : state),
    _node s0 = PyNone ->
    Popen env [_node s0; PyStr (marked env)] s0 = (Raise TypeError, s0) /\
    markdown2html_marked env source encoding s0 = (Raise TypeError, s0) /\
    (forall msg, fst (markdown2html_marked env source encoding s0)
                 <> Raise (NodeJSMissing msg)) /\
    kind_of TypeError <> BackendUnavailable.
Proof.
  intros env source encoding s0 Hn.
  assert (Hrun : markdown2html_marked env source encoding s0
                 = (Raise TypeError, s0)).
  { apply marked_run_not_str. rewrite Hn. discriminate. }
  repeat split.
  - rewrite Hn. reflexivity.
  - exact Hrun.
  - intros msg. rewrite Hrun. discriminate.
  - discriminate.
Qed.

Lemma marked_before_selection_TypeError_witness :
  Popen Sample.two_newlines [_node Sample.start; PyStr (marked Sample.two_newlines)]
        Sample.start = (Raise TypeError, Sample.start) /\
  markdown2html_marked Sample.two_newlines "# Hi" "utf-8" Sample.start
  = (Raise TypeError, Sample.start) /\
  (forall msg,
      fst (markdown2html_marked Sample.two_newlines "# Hi" "utf-8" Sample.start)
      <> Raise (NodeJSMissing msg)) /\
  kind_of TypeError <> BackendUnavailable.
Proof.
  apply (marked_before_selection_TypeError
           Sample.two_newlines "# Hi" "utf-8" Sample.start).
  reflexivity.
Defined.

(** ** The in-process parser *)

(** C3, as amended.  When mistune is not installed, [markdown2html_mistune]
    fails for every source string, with the [AttributeError] of looking up
    [Markdown] on [None]; that error is not a BackendUnavailable error. *)
Theorem mistune_missing_AttributeError :
  forall (env : Env) (source : string) (s : state),
    mistune env = None ->
    markdown2html_mistune env source s = (Raise AttributeError, s) /\
    kind_of AttributeError = OtherError.
Proof.
  intros env source s H. unfold markdown2html_mistune. rewrite H.
  split; reflexivity.
Qed.

Lemma mistune_missing_AttributeError_witness :
  markdown2html_mistune Sample.bare "# Hi" Sample.start
  = (Raise AttributeError, Sample.start) /\
  kind_of AttributeError = OtherError.
Proof.
  apply (mistune_missing_AttributeError Sample.bare "# Hi" Sample.start).
  reflexivity.
Defined.

(** C3 as stated fails: without mistune the function does not end in a
    BackendUnavailable error. *)
Lemma mistune_missing_counterexample :
  mistune Sample.bare = None /\
  ~ (exists e, fst (markdown2html_mistune Sample.bare "# Hi" Sample.start)
               = Raise e /\
               kind_of e = BackendUnavailable).
Proof.
  split; [reflexivity|].
  intros (e & He & Hk). cbn in He. injection He as <-. discriminate.
Qed.

Section RenderFacts.

Variable env : Env.
Variable lib : Mistune.

Lemma block_code_untagged (code : string) (lang : option string) :
  not_lang lang = true ->
  block_code env lib code lang
  = Return (String PyStr.nl "<pre><code>" ++ md_escape lib code
            ++ "</code></pre>" ++ String PyStr.nl "").
Proof. intros H. unfold block_code. now rewrite H. Qed.

Lemma block_code_tagged (code lang : string) :
  lang <> "" ->
  block_code env lib code (Some lang)
  = if lexer_known env lang
    then Return (highlight env code (Lexer lang true) HtmlFormatter)
    else Raise (ClassNotFound lang).
Proof.
  intros H. unfold block_code, not_lang, get_lexer_by_name.
  destruct (String.eqb_spec lang "") as [E|_]; [contradiction|].
  now destruct (lexer_known env lang).
Qed.

(** The renderer raises nothing but [ClassNotFound]. *)
Lemma render_token_raises (t : token) (e : exn) :
  render_token env lib t = Raise e -> exists l, e = ClassNotFound l.
Proof.
  destruct t as [code lang|html]; cbn; [|discriminate].
  unfold block_code, get_lexer_by_name.
  destruct (not_lang lang); [discriminate|].
  destruct (lexer_known env _); [discriminate|].
  intros [= <-]. eauto.
Qed.

Lemma render_tokens_raises (toks : list token) (t : token) (e : exn) :
  In t toks -> render_token env lib t = Raise e ->
  exists l, render_tokens env lib toks = Raise (ClassNotFound l).
Proof.
  induction toks as [|t' rest IH]; intros Hin Ht; [contradiction|].
  cbn [render_tokens].
  destruct (render_token env lib t') as [h|e'] eqn:E'.
  - destruct Hin as [->|Hin]; [congruence|].
    destruct (IH Hin Ht) as [l ->]. eauto.
  - destruct (render_token_raises _ _ E') as [l ->]. eauto.
Qed.

Lemma render_tokens_contains (toks : list token) (out : string) (t : token) :
  render_tokens env lib toks = Return out -> In t toks ->
  exists block, render_token env lib t = Return block /\
                PyStr.contains block out.
Proof.
  revert out.
  induction toks as [|t' rest IH]; intros out Hout Hin; [contradiction|].
  cbn [render_tokens] in Hout.
  destruct (render_token env lib t') as [h|] eqn:E'; [|discriminate].
  destruct (render_tokens env lib rest) as [r|] eqn:Er; [|discriminate].
  injection Hout as <-.
  destruct Hin as [->|Hin].
  - exists h. split; [exact E'|]. exists "", r. reflexivity.
  - destruct (IH r eq_refl Hin) as (block & Hb & pre & post & ->).
    exists block. split; [exact Hb|].
    exists (h ++ pre), post. now rewrite PyStrFacts.app_assoc.
Qed.

Lemma render_tokens_returns (toks : list token) :
  (forall t, In t toks -> exists b, render_token env lib t = Return b) ->
  exists out, render_tokens env lib toks = Return out.
Proof.
  induction toks as [|t rest IH]; intros H; cbn [render_tokens]; [eauto|].
  destruct (H t (or_introl eq_refl)) as [b ->].
  destruct IH as [r ->]; [|eauto].
  intros t' Hin. apply H. now right.
Qed.

End RenderFacts.

(** C9.  In [markdown2html_mistune], with mistune installed: a code block
    without a language tag is rendered as the escaped code between
    [<pre><code>] and [</code></pre>]; a code block whose tag names a known
    lexer is rendered by [highlight] with the lexer of that name, made with
    [stripall=True], and the HTML formatter; the rendering of every block is
    part of the output when the conversion returns, and it returns when all
    tags are known; a code block whose tag names no lexer makes the whole
    conversion fail with [ClassNotFound], the UnknownLanguage error. *)
Theorem mistune_code_blocks :
  forall (env : Env) (lib : Mistune) (source : string) (s : state),
    mistune env = Some lib ->
    (forall code,
        block_code env lib code None
        = Return (String PyStr.nl "<pre><code>" ++ md_escape lib code
                  ++ "</code></pre>" ++ String PyStr.nl "")) /\
    (forall code lang,
        lang <> "" -> lexer_known env lang = true ->
        block_code env lib code (Some lang)
        = Return (highlight env code (Lexer lang true) HtmlFormatter)) /\
    (forall code lang out,
        In (TCode code lang) (md_parse lib source) ->
        fst (markdown2html_mistune env source s) = Return out ->
        exists block, block_code env lib code lang = Return block /\
                      PyStr.contains block out) /\
    ((forall code lang,
         In (TCode code (Some lang)) (md_parse lib source) ->
         lang = "" \/ lexer_known env lang = true) ->
     exists out, markdown2html_mistune env source s = (Return out, s)) /\
    (forall code lang,
        In (TCode code (Some lang)) (md_parse lib source) ->
        lang <> "" -> lexer_known env lang = false ->
        exists l,
          markdown2html_mistune env source s = (Raise (ClassNotFound l), s) /\
          kind_of (ClassNotFound l) = UnknownLanguage).
Proof.
  intros env lib source s Hlib.
  unfold markdown2html_mistune, lift. rewrite Hlib. cbn [fst].
  split; [|split; [|split; [|split]]].
  - intros code. now apply block_code_untagged.
  - intros code lang Hl Hk. rewrite block_code_tagged by exact Hl.
    now rewrite Hk.
  - intros code lang out Hin Hout.
    exact (render_tokens_contains env lib _ out (TCode code lang) Hout Hin).
  - intros Hall.
    destruct (render_tokens_returns env lib (md_parse lib source)) as [out ->];
      [|eauto].
    intros [code [lang|]|html] Hin; cbn [render_token]; [| |eauto].
    + destruct (Hall code lang Hin) as [->|Hk].
      * rewrite block_code_untagged by reflexivity. eauto.
      * destruct (String.eqb_spec lang "") as [->|Hne].
        -- rewrite block_code_untagged by reflexivity. eauto.
        -- rewrite block_code_tagged by exact Hne. rewrite Hk. eauto.
    + rewrite block_code_untagged by reflexivity. eauto.
  - intros code lang Hin Hl Hk.
    destruct (render_tokens_raises env lib (md_parse lib source)
                (TCode code (Some lang)) (ClassNotFound lang) Hin) as [l ->].
    + cbn [render_token]. rewrite block_code_tagged by exact Hl.
      now rewrite Hk.
    + exists l. split; reflexivity.
Qed.

Lemma mistune_code_blocks_witness :
  (exists l,
      markdown2html_mistune Sample.no_node Sample.nolang_doc Sample.start
      = (Raise (ClassNotFound l), Sample.start) /\
      kind_of (ClassNotFound l) = UnknownLanguage)
  /\
  (exists out,
      markdown2html_mistune Sample.no_node Sample.untagged_doc Sample.start
      = (Return out, Sample.start)).
Proof.
  split.
  - apply (proj2 (proj2 (proj2 (proj2
             (mistune_code_blocks Sample.no_node Sample.lib Sample.nolang_doc
                                  Sample.start eq_refl)))) "a<b" "nolang").
    + left. reflexivity.
    + discriminate.
    + reflexivity.
  - apply (proj1 (proj2 (proj2 (proj2
             (mistune_code_blocks Sample.no_node Sample.lib Sample.untagged_doc
                                  Sample.start eq_refl))))).
    intros code lang [H|[]]. discriminate H.
Defined.

(** ** The pandoc conversions *)

Lemma pandoc_contract_intro (f : Env -> string -> M string)
      (to : string) (extra_args : list string) :
  (forall env source, f env source = pandoc env source "markdown" to extra_args) ->
  pandoc_contract f to extra_args.
Proof.
  intros Hf env source s. cbn zeta. rewrite Hf.
  unfold pandoc, bind, emit, history, raise, ret. cbn [trace _node].
  split; [reflexivity|].
  split; [|split].
  - intros ->. reflexivity.
  - intros out err ->. reflexivity.
  - intros code out err -> Hc.
    destruct (Z.eqb_spec code 0); [contradiction|reflexivity].
Qed.

(** C7.  [markdown2latex] is the call of the document-conversion tool from
    markdown to latex and [markdown2rst] the call from markdown to rst, for
    every source string; each returns the output of the tool when the tool
    exits with status 0, fails with [PandocMissing], a BackendUnavailable
    error, when the tool is not installed, and fails with
    [ConversionException], a ConversionError carrying the standard error of
    the tool, when it exits with another status. *)
Theorem latex_rst_pandoc_contract :
  pandoc_contract markdown2latex "latex" [] /\
  pandoc_contract markdown2rst "rst" [] /\
  kind_of PandocMissing = BackendUnavailable /\
  (forall err, kind_of (ConversionException err) = ConversionError).
Proof.
  split; [|split; [|split]].
  - now apply pandoc_contract_intro.
  - now apply pandoc_contract_intro.
  - reflexivity.
  - reflexivity.
Qed.

Lemma latex_rst_pandoc_contract_witness :
  fst (markdown2latex (Sample.pandoc_only "") "" Sample.start) = Return "" /\
  fst (markdown2rst (Sample.pandoc_only "") "" Sample.start) = Return "" /\
  fst (markdown2latex Sample.bare "" Sample.start) = Raise PandocMissing /\
  fst (markdown2rst Sample.bare "" Sample.start) = Raise PandocMissing /\
  fst (markdown2latex Sample.pandoc_failing "# Hi" Sample.start)
  = Raise (ConversionException "pandoc: unknown option").
Proof.
  destruct latex_rst_pandoc_contract as (Hl & Hr & _ & _).
  split; [|split; [|split; [|split]]].
  - apply (proj1 (proj2 (proj2 (Hl (Sample.pandoc_only "") "" Sample.start)))
             "" ""). reflexivity.
  - apply (proj1 (proj2 (proj2 (Hr (Sample.pandoc_only "") "" Sample.start)))
             "" ""). reflexivity.
  - apply (proj1 (proj2 (Hl Sample.bare "" Sample.start))). reflexivity.
  - apply (proj1 (proj2 (Hr Sample.bare "" Sample.start))). reflexivity.
  - apply (proj2 (proj2 (proj2 (Hl Sample.pandoc_failing "# Hi" Sample.start)))
             2%Z "" "pandoc: unknown option"); [reflexivity|discriminate].
Defined.

(** C8.  [markdown2html_pandoc] is the call of the document-conversion tool
    from markdown to html with the extra argument [--mathjax]; it returns
    the output of the tool as it is and fails the way [markdown2latex]
    does. *)
Theorem html_pandoc_contract :
  pandoc_contract markdown2html_pandoc "html" ["--mathjax"].
Proof. now apply pandoc_contract_intro. Qed.

Lemma html_pandoc_contract_witness :
  fst (markdown2html_pandoc (Sample.pandoc_only "<h1>Hi</h1>") "# Hi" Sample.start)
  = Return "<h1>Hi</h1>" /\
  fst (markdown2html_pandoc Sample.bare "# Hi" Sample.start) = Raise PandocMissing /\
  fst (markdown2html_pandoc Sample.pandoc_failing "# Hi" Sample.start)
  = Raise (ConversionException "pandoc: unknown option").
Proof.
  split; [|split].
  - apply (proj1 (proj2 (proj2 (html_pandoc_contract
             (Sample.pandoc_only "<h1>Hi</h1>") "# Hi" Sample.start)))
             "<h1>Hi</h1>" ""). reflexivity.
  - apply (proj1 (proj2 (html_pandoc_contract Sample.bare "# Hi" Sample.start))).
    reflexivity.
  - apply (proj2 (proj2 (proj2 (html_pandoc_contract
             Sample.pandoc_failing "# Hi" Sample.start)))
             2%Z "" "pandoc: unknown option"); [reflexivity|discriminate].
Defined.

(** ** Version strings *)

Module VersionFacts.
Import PyStr Version.

Lemma lstrip_no_char (c : ascii) (s r : string) :
  s <> "" -> no_char c s = true -> lstrip c (s ++ r) = s ++ r.
Proof.
  destruct s as [|a s]; [congruence|]. intros _ H. cbn in *.
  apply andb_prop in H as [H _].
  now destruct (Ascii.eqb a c).
Qed.

Lemma split_dots_plain (x : string) :
  no_char "." x = true -> split_dots x = [x].
Proof.
  induction x as [|a x IH]; cbn; [reflexivity|].
  intros H. apply andb_prop in H as [Ha Hx].
  destruct (Ascii.eqb a "."); [discriminate|].
  now rewrite (IH Hx).
Qed.

Lemma split_dots_app (x r : string) :
  no_char "." x = true ->
  split_dots (x ++ String "." r) = x :: split_dots r.
Proof.
  induction x as [|a x IH]; cbn; [reflexivity|].
  intros H. apply andb_prop in H as [Ha Hx].
  destruct (Ascii.eqb a "."); [discriminate|].
  now rewrite (IH Hx).
Qed.

Lemma digits_no_dot (d : uint) :
  no_char "." (NilEmpty.string_of_uint d) = true.
Proof. induction d; cbn; auto. Qed.

Lemma digits_no_v (d : uint) :
  no_char "v" (NilEmpty.string_of_uint d) = true.
Proof. induction d; cbn; auto. Qed.

Lemma show_nat_no_dot (n : nat) : no_char "." (show_nat n) = true.
Proof.
  unfold show_nat, NilZero.string_of_uint.
  destruct (Nat.to_uint n); try apply digits_no_dot. reflexivity.
Qed.

Lemma show_nat_no_v (n : nat) : no_char "v" (show_nat n) = true.
Proof.
  unfold show_nat, NilZero.string_of_uint.
  destruct (Nat.to_uint n); try apply digits_no_v. reflexivity.
Qed.

Lemma show_nat_nonempty (n : nat) : show_nat n <> "".
Proof.
  unfold show_nat, NilZero.string_of_uint.
  destruct (Nat.to_uint n); cbn; discriminate.
Qed.

Lemma parse_show_nat (n : nat) : parse_nat (show_nat n) = Some n.
Proof.
  unfold parse_nat, show_nat.
  assert (H : Nat.to_uint n <> Nil).
  { rewrite <- (DecimalNat.Unsigned.of_to n) at 1.
    rewrite DecimalNat.Unsigned.to_of. apply DecimalFacts.unorm_nonnil. }
  rewrite (NilZero.usu _ H). cbn.
  now rewrite DecimalNat.Unsigned.of_to.
Qed.

(** Printing a version and parsing it back. *)
Lemma parse_show (v : t) : parse (show v) = Some v.
Proof.
  destruct v as [[a b] c]. unfold parse, show.
  change ("." ++ show_nat b ++ "." ++ show_nat c)
    with (String "." (show_nat b ++ String "." (show_nat c))).
  rewrite split_dots_app by apply show_nat_no_dot.
  rewrite split_dots_app by apply show_nat_no_dot.
  rewrite split_dots_plain by apply show_nat_no_dot.
  now rewrite !parse_show_nat.
Qed.

Lemma lstrip_v_show (v : t) : lstrip "v" (show v) = show v.
Proof.
  destruct v as [[a b] c]. unfold show.
  apply lstrip_no_char; [apply show_nat_nonempty | apply show_nat_no_v].
Qed.

Lemma lstrip_v_prefixed (k : nat) (v : t) :
  lstrip "v" (replicate k "v" ++ show v) = show v.
Proof.
  induction k as [|k IH]; cbn; [apply lstrip_v_show | exact IH].
Qed.

End VersionFacts.

(** ** The probe *)

(** One run of [_verify_node]: a single probe, and [_node] untouched. *)
Lemma verify_node_run (env : Env) (cmd : string) (s : state) :
  _verify_node env cmd s =
    let argv := [cmd; "--version"] in
    let s' := mkState (_node s) (trace s ++ [EvRun argv]) in
    (Return match get_output_error_code env (trace s') argv with
            | inl _ => false
            | inr (out, _, code) =>
                if negb (code =? 0)%Z then false
                else check_version env (PyStr.lstrip "v" out) "0.9.12"
            end, s').
Proof.
  unfold _verify_node, bind, try_except_OSError, call_get_output_error_code.
  unfold bind, emit, history, raise, ret. cbn [trace _node].
  destruct (get_output_error_code env _ _) as [e|[[out err] code]]; cbn;
    [reflexivity|].
  now destruct (code =? 0)%Z.
Qed.

Lemma version_ge_minimum (a b c : nat) :
  Version.ge (a, b, c) (0, 9, 12) = true <->
  (0 < a \/ a = 0 /\ (9 < b \/ b = 9 /\ 12 <= c)).
Proof.
  unfold Version.ge.
  rewrite orb_true_iff, !andb_true_iff, orb_true_iff, andb_true_iff.
  rewrite !Nat.ltb_lt, !Nat.eqb_eq, Nat.leb_le. tauto.
Qed.

(** C4.  [_verify_node] answers unavailable when the command cannot be run
    with [--version] or exits with a status other than 0; otherwise it
    answers what the version comparison says of the output, once its leading
    [v]s are dropped, against 0.9.12.  On an output [MAJOR.MINOR.PATCH] or
    [vMAJOR.MINOR.PATCH] the answer is available exactly when
    (MAJOR, MINOR, PATCH) is at least (0, 9, 12); so [v0.9.12] is available
    and [v0.9.11] is not. *)
Theorem verify_node_minimum_version :
  forall (env : Env) (cmd : string) (s : state),
    let argv := [cmd; "--version"] in
    let answer := get_output_error_code env (trace s ++ [EvRun argv]) argv in
    (forall e, answer = inl e -> fst (_verify_node env cmd s) = Return false) /\
    (forall out err code,
        answer = inr (out, err, code) -> code <> 0%Z ->
        fst (_verify_node env cmd s) = Return false) /\
    (forall out err,
        answer = inr (out, err, 0%Z) ->
        fst (_verify_node env cmd s)
        = Return (check_version env (PyStr.lstrip "v" out) "0.9.12")) /\
    (forall out err a b c,
        answer = inr (out, err, 0%Z) ->
        out = Version.show (a, b, c) \/ out = "v" ++ Version.show (a, b, c) ->
        fst (_verify_node env cmd s) = Return (Version.ge (a, b, c) (0, 9, 12)) /\
        (Version.ge (a, b, c) (0, 9, 12) = true <->
         (0 < a \/ a = 0 /\ (9 < b \/ b = 9 /\ 12 <= c)))) /\
    (forall err, answer = inr ("v0.9.12", err, 0%Z) ->
                 fst (_verify_node env cmd s) = Return true) /\
    (forall err, answer = inr ("v0.9.11", err, 0%Z) ->
                 fst (_verify_node env cmd s) = Return false).
Proof.
  intros env cmd s argv answer.
  rewrite verify_node_run. cbn zeta. cbn [fst trace].
  fold argv. fold answer.
  assert (Htriple : forall out err a b c,
             answer = inr (out, err, 0%Z) ->
             out = Version.show (a, b, c) \/ out = "v" ++ Version.show (a, b, c) ->
             Return match answer with
                    | inl _ => false
                    | inr (out, _, code) =>
                        if negb (code =? 0)%Z then false
                        else check_version env (PyStr.lstrip "v" out) "0.9.12"
                    end
             = Return (Version.ge (a, b, c) (0, 9, 12))).
  { intros out err a b c -> Hout. cbn [Z.eqb negb]. f_equal.
    assert (Hs : PyStr.lstrip "v" out = Version.show (a, b, c)).
    { destruct Hout as [->| ->].
      - apply VersionFacts.lstrip_v_show.
      - exact (VersionFacts.lstrip_v_prefixed 1 (a, b, c)). }
    rewrite Hs. unfold check_version.
    rewrite VersionFacts.parse_show.
    change "0.9.12" with (Version.show (0, 9, 12)).
    now rewrite VersionFacts.parse_show. }
  split; [|split; [|split; [|split; [|split]]]].
  - now intros e ->.
  - intros out err code -> Hc.
    now destruct (Z.eqb_spec code 0).
  - now intros out err ->.
  - intros out err a b c Ha Hout. split.
    + exact (Htriple out err a b c Ha Hout).
    + apply version_ge_minimum.
  - intros err Ha.
    exact (Htriple "v0.9.12" err 0 9 12 Ha (or_intror eq_refl)).
  - intros err Ha.
    exact (Htriple "v0.9.11" err 0 9 11 Ha (or_intror eq_refl)).
Qed.

Lemma verify_node_minimum_version_witness :
  fst (_verify_node (Sample.world ["node"] "v0.9.12" (inl "") None None)
                    "node" Sample.start) = Return true /\
  fst (_verify_node (Sample.world ["node"] "v0.9.11" (inl "") None None)
                    "node" Sample.start) = Return false /\
  fst (_verify_node Sample.bare "node" Sample.start) = Return false.
Proof.
  split; [|split].
  - apply (proj1 (proj2 (proj2 (proj2 (proj2
             (verify_node_minimum_version
                (Sample.world ["node"] "v0.9.12" (inl "") None None)
                "node" Sample.start))))) "").
    reflexivity.
  - apply (proj2 (proj2 (proj2 (proj2 (proj2
             (verify_node_minimum_version
                (Sample.world ["node"] "v0.9.11" (inl "") None None)
                "node" Sample.start))))) "").
    reflexivity.
  - apply (proj1 (verify_node_minimum_version Sample.bare "node" Sample.start)
             "[Errno 2] No such file or directory").
    reflexivity.
Defined.

(** ** Backend selection *)

Section SelectionFacts.

Variable env : Env.

(** A step from [s] to [s'] is quiet when it keeps [_node], probes nothing
    and warns of nothing. *)
Let quiet (s s' : state) : Prop :=
  _node s' = _node s /\
  probes (trace s') = probes (trace s) /\
  warnings (trace s') = warnings (trace s).

Lemma probes_app (t u : list event) :
  probes (t ++ u) = probes t + probes u.
Proof.
  induction t as [|e t IH]; [reflexivity|].
  destruct e; cbn; now rewrite ?IH.
Qed.

Lemma warnings_app (t u : list event) :
  warnings (t ++ u) = warnings t + warnings u.
Proof.
  induction t as [|e t IH]; [reflexivity|].
  destruct e; cbn; now rewrite ?IH.
Qed.

Lemma quiet_refl (s : state) : quiet s s.
Proof. now repeat split. Qed.

Lemma marked_quiet (source encoding : string) (s : state) :
  quiet s (snd (markdown2html_marked env source encoding s)).
Proof.
  destruct (_node s) as [|b|n] eqn:Hn.
  - rewrite marked_run_not_str by (rewrite Hn; discriminate). apply quiet_refl.
  - rewrite marked_run_not_str by (rewrite Hn; discriminate). apply quiet_refl.
  - rewrite (marked_run env source encoding s n Hn). cbn zeta. cbn [trace].
    unfold quiet. rewrite Hn.
    destruct (spawn env _ _) as [e|p]; cbn [snd _node trace].
    + rewrite probes_app, warnings_app. cbn. now rewrite !Nat.add_0_r.
    + destruct (cast_bytes env source encoding) as [input|];
        cbn [snd _node trace].
      * destruct (decode_replace env encoding _); cbn [snd _node trace];
          rewrite !probes_app, !warnings_app; cbn; now rewrite !Nat.add_0_r.
      * rewrite probes_app, warnings_app. cbn. now rewrite !Nat.add_0_r.
Qed.

Lemma mistune_quiet (source : string) (s : state) :
  quiet s (snd (markdown2html_mistune env source s)).
Proof.
  unfold markdown2html_mistune. destruct (mistune env); apply quiet_refl.
Qed.

Lemma pandoc_quiet (source fmt to : string) (extra : list string) (s : state) :
  quiet s (snd (pandoc env source fmt to extra s)).
Proof.
  unfold pandoc, bind, emit, history, raise, ret. cbn [trace _node].
  unfold quiet.
  destruct (pandoc_tool env _ _ _) as [[[code out] err]|];
    [destruct (code =? 0)%Z|]; cbn [snd _node trace];
    rewrite probes_app, warnings_app; cbn; now rewrite !Nat.add_0_r.
Qed.

(** A call of [markdown2html] once [_node] is set: no probe, the backend
    [_node] names. *)
Lemma markdown2html_memoized (source : string) (s : state) :
  _node s <> PyNone ->
  markdown2html env source s =
    if truthy (_node s) then markdown2html_marked env source "utf-8" s
    else match mistune env with
         | Some _ => markdown2html_mistune env source s
         | None => markdown2html_pandoc env source s
         end.
Proof.
  intros Hn. unfold markdown2html.
  unfold bind at 1. unfold get_node at 1. cbv beta iota.
  unfold bind at 1.
  destruct (_node s) as [|b|n] eqn:E; [contradiction| |];
    unfold ret at 1; cbv beta iota;
    unfold bind at 1; unfold get_node at 1; cbv beta iota; rewrite E;
    (destruct (truthy _); [reflexivity|]);
    destruct (mistune env); reflexivity.
Qed.

Lemma markdown2html_memoized_quiet (source : string) (s : state) :
  _node s <> PyNone -> quiet s (snd (markdown2html env source s)).
Proof.
  intros Hn. rewrite markdown2html_memoized by exact Hn.
  destruct (truthy (_node s)); [apply marked_quiet|].
  destruct (mistune env); [apply mistune_quiet | apply pandoc_quiet].
Qed.

Lemma run_calls_quiet (later : list string) (s : state) :
  _node s <> PyNone -> quiet s (run_calls env later s).
Proof.
  revert s. induction later as [|src later IH]; intros s Hn;
    [apply quiet_refl|].
  cbn [run_calls].
  destruct (markdown2html_memoized_quiet src s Hn) as (H1 & H2 & H3).
  destruct (IH (snd (markdown2html env src s))) as (K1 & K2 & K3).
  { now rewrite H1. }
  unfold quiet. now rewrite K1, K2, K3.
Qed.

(** The first call of [markdown2html], while [_node] is [None]. *)
Lemma markdown2html_first (source : string) (s : state) :
  _node s = PyNone ->
  let s1 := mkState (PyStr "nodejs") (trace s ++ [EvRun ["nodejs"; "--version"]]) in
  let s2 := mkState (PyStr "node") (trace s1 ++ [EvRun ["node"; "--version"]]) in
  let s3 := mkState (PyBool false) (trace s2 ++ [EvWarn fallback_warning]) in
  markdown2html env source s =
    match fst (_verify_node env "nodejs" (mkState (PyStr "nodejs") (trace s))) with
    | Return true => markdown2html_marked env source "utf-8" s1
    | _ =>
        match fst (_verify_node env "node" (mkState (PyStr "node") (trace s1))) with
        | Return true => markdown2html_marked env source "utf-8" s2
        | _ =>
            match mistune env with
            | Some _ => markdown2html_mistune env source s3
            | None => markdown2html_pandoc env source s3
            end
        end
    end.
Proof.
  intros Hn. cbn zeta.
  unfold markdown2html. unfold bind at 1. unfold get_node at 1.
  rewrite Hn. unfold bind at 1. unfold bind at 1. unfold set_node at 1.
  unfold bind at 1. rewrite !verify_node_run. cbn zeta. cbn [trace _node fst].
  destruct (match get_output_error_code env _ ["nodejs"; "--version"] with
            | inl _ => false | inr _ => _ end) eqn:E1.
  - cbn. reflexivity.
  - cbn [negb]. unfold bind at 1. unfold set_node at 1.
    unfold bind at 1. rewrite verify_node_run. cbn zeta. cbn [trace _node fst].
    destruct (match get_output_error_code env _ ["node"; "--version"] with
              | inl _ => false | inr _ => _ end) eqn:E2.
    + cbn. reflexivity.
    + cbn. destruct (mistune env); reflexivity.
Qed.

End SelectionFacts.

Lemma markdown2html_sets_node (env : Env) (source : string) (s : state) :
  _node (snd (markdown2html env source s)) <> PyNone.
Proof.
  destruct (_node s) as [|b|n] eqn:Hn.
  - rewrite (markdown2html_first env source s Hn). cbn zeta.
    destruct (fst (_verify_node env "nodejs" _)) as [[|]|];
      try (rewrite (proj1 (marked_quiet env _ _ _)); discriminate);
      destruct (fst (_verify_node env "node" _)) as [[|]|];
      try (rewrite (proj1 (marked_quiet env _ _ _)); discriminate);
      (destruct (mistune env);
       [rewrite (proj1 (mistune_quiet env _ _)); discriminate
       |unfold markdown2html_pandoc;
        rewrite (proj1 (pandoc_quiet env _ _ _ _ _)); discriminate]).
  - rewrite (proj1 (markdown2html_memoized_quiet env source s
                      ltac:(rewrite Hn; discriminate))).
    rewrite Hn. discriminate.
  - rewrite (proj1 (markdown2html_memoized_quiet env source s
                      ltac:(rewrite Hn; discriminate))).
    rewrite Hn. discriminate.
Qed.

(** C2.  [markdown2html] converts through one backend, chosen in a fixed
    order.  On the first call, while [_node] is [None]: when the probe of
    [nodejs] succeeds the conversion is that of the node renderer run as
    [nodejs]; when it fails and the probe of [node] succeeds, that of the
    node renderer run as [node]; when both fail, that of mistune if mistune
    is installed and that of pandoc otherwise.  The call leaves [_node] set;
    a call that finds [_node] set probes nothing and converts through the
    backend [_node] names, and so does every later call of the process. *)
Theorem markdown2html_precedence_memoized :
  forall (env : Env) (source : string) (s : state),
    (_node s = PyNone ->
     let s1 := mkState (PyStr "nodejs")
                       (trace s ++ [EvRun ["nodejs"; "--version"]]) in
     let s2 := mkState (PyStr "node")
                       (trace s1 ++ [EvRun ["node"; "--version"]]) in
     let s3 := mkState (PyBool false) (trace s2 ++ [EvWarn fallback_warning]) in
     let nodejs_ok :=
       fst (_verify_node env "nodejs" (mkState (PyStr "nodejs") (trace s))) in
     let node_ok :=
       fst (_verify_node env "node" (mkState (PyStr "node") (trace s1))) in
     (nodejs_ok = Return true ->
      markdown2html env source s = markdown2html_marked env source "utf-8" s1) /\
     (nodejs_ok = Return false -> node_ok = Return true ->
      markdown2html env source s = markdown2html_marked env source "utf-8" s2) /\
     (nodejs_ok = Return false -> node_ok = Return false ->
      mistune env <> None ->
      markdown2html env source s = markdown2html_mistune env source s3) /\
     (nodejs_ok = Return false -> node_ok = Return false ->
      mistune env = None ->
      markdown2html env source s = markdown2html_pandoc env source s3)) /\
    (_node s <> PyNone ->
     markdown2html env source s
     = (if truthy (_node s) then markdown2html_marked env source "utf-8" s
        else match mistune env with
             | Some _ => markdown2html_mistune env source s
             | None => markdown2html_pandoc env source s
             end) /\
     probes (trace (snd (markdown2html env source s))) = probes (trace s)) /\
    (let s' := snd (markdown2html env source s) in
     _node s' <> PyNone /\
     forall later,
       _node (run_calls env later s') = _node s' /\
       probes (trace (run_calls env later s')) = probes (trace s')).
Proof.
  intros env source s. split; [|split].
  - intros Hn. cbn zeta.
    rewrite (markdown2html_first env source s Hn). cbn zeta.
    split; [|split; [|split]].
    + now intros ->.
    + now intros -> ->.
    + intros -> -> Hm. destruct (mistune env); [reflexivity|contradiction].
    + now intros -> -> ->.
  - intros Hn. split.
    + now apply markdown2html_memoized.
    + now apply markdown2html_memoized_quiet.
  - cbn zeta. split; [apply markdown2html_sets_node|].
    intros later.
    destruct (run_calls_quiet env later (snd (markdown2html env source s))
                (markdown2html_sets_node env source s)) as (H1 & H2 & _).
    now split.
Qed.

Lemma markdown2html_precedence_memoized_witness :
  markdown2html Sample.two_newlines "# Hi" Sample.start
  = markdown2html_marked Sample.two_newlines "# Hi" "utf-8"
      (mkState (PyStr "node")
               [EvRun ["nodejs"; "--version"]; EvRun ["node"; "--version"]])
  /\
  markdown2html Sample.bare "# Hi" Sample.start
  = markdown2html_pandoc Sample.bare "# Hi"
      (mkState (PyBool false)
               [EvRun ["nodejs"; "--version"]; EvRun ["node"; "--version"];
                EvWarn fallback_warning])
  /\
  probes (trace (snd (markdown2html Sample.two_newlines "# Hi" Sample.with_node)))
  = probes (trace Sample.with_node).
Proof.
  split; [|split].
  - apply (proj1 (proj2 (proj1 (markdown2html_precedence_memoized
                                  Sample.two_newlines "# Hi" Sample.start)
                               eq_refl))); reflexivity.
  - apply (proj2 (proj2 (proj2 (proj1 (markdown2html_precedence_memoized
                                         Sample.bare "# Hi" Sample.start)
                                      eq_refl)))); reflexivity.
  - apply (proj1 (proj2 (markdown2html_precedence_memoized
                           Sample.two_newlines "# Hi" Sample.with_node))).
    discriminate.
Defined.

(** C5.  In a process whose first call of [markdown2html] finds no Node
    runtime under [nodejs] nor under [node], that first call emits the
    fallback warning once, and no later call of the process emits a
    warning, however many calls follow. *)
Theorem fallback_warning_first_call_only :
  forall (env : Env) (source : string) (s : state),
    _node s = PyNone ->
    fst (_verify_node env "nodejs" (mkState (PyStr "nodejs") (trace s)))
    = Return false ->
    fst (_verify_node env "node"
           (mkState (PyStr "node")
                    (trace s ++ [EvRun ["nodejs"; "--version"]])))
    = Return false ->
    let s1 := snd (markdown2html env source s) in
    warnings (trace s1) = S (warnings (trace s)) /\
    (forall later,
        warnings (trace (run_calls env later s1)) = warnings (trace s1)) /\
    (forall later source',
        let s' := run_calls env later s1 in
        warnings (trace (snd (markdown2html env source' s')))
        = warnings (trace s')).
Proof.
  intros env source s Hn H1 H2. cbn zeta.
  assert (Hset := markdown2html_sets_node env source s).
  split; [|split].
  - rewrite (markdown2html_first env source s Hn). cbn zeta.
    rewrite H1. cbn [trace]. rewrite H2.
    destruct (mistune env).
    + rewrite (proj2 (proj2 (mistune_quiet env _ _))). cbn [trace].
      rewrite !warnings_app. cbn. lia.
    + unfold markdown2html_pandoc.
      rewrite (proj2 (proj2 (pandoc_quiet env _ _ _ _ _))). cbn [trace].
      rewrite !warnings_app. cbn. lia.
  - intros later.
    exact (proj2 (proj2 (run_calls_quiet env later _ Hset))).
  - intros later source'. cbn zeta.
    apply markdown2html_memoized_quiet.
    rewrite (proj1 (run_calls_quiet env later _ Hset)). exact Hset.
Qed.

Lemma fallback_warning_first_call_only_witness :
  let s1 := snd (markdown2html Sample.no_node "# Hi" Sample.start) in
  warnings (trace s1) = S (warnings (trace Sample.start)) /\
  (forall later,
      warnings (trace (run_calls Sample.no_node later s1))
      = warnings (trace s1)) /\
  (forall later source',
      let s' := run_calls Sample.no_node later s1 in
      warnings (trace (snd (markdown2html Sample.no_node source' s')))
      = warnings (trace s')).
Proof.
  apply (fallback_warning_first_call_only Sample.no_node "# Hi" Sample.start);
    reflexivity.
Defined.

(** * Further properties of the module *)

(** ** The first call, case by case *)

(** What the first call of [markdown2html] leaves behind: the command name
    selected, the number of probes it ran and whether it warned. *)
Lemma markdown2html_first_state (env : Env) (source : string) (s : state) :
  _node s = PyNone ->
  let s' := snd (markdown2html env source s) in
  let s1 := mkState (PyStr "nodejs")
                    (trace s ++ [EvRun ["nodejs"; "--version"]]) in
  match fst (_verify_node env "nodejs" (mkState (PyStr "nodejs") (trace s))) with
  | Return true =>
      _node s' = PyStr "nodejs" /\
      probes (trace s') = 1 + probes (trace s) /\
      warnings (trace s') = warnings (trace s)
  | _ =>
      match fst (_verify_node env "node" (mkState (PyStr "node") (trace s1))) with
      | Return true =>
          _node s' = PyStr "node" /\
          probes (trace s') = 2 + probes (trace s) /\
          warnings (trace s') = warnings (trace s)
      | _ =>
          _node s' = PyBool false /\
          probes (trace s') = 2 + probes (trace s) /\
          warnings (trace s') = 1 + warnings (trace s)
      end
  end.
Proof.
  intros Hn. cbn zeta. rewrite (markdown2html_first env source s Hn). cbn zeta.
  assert (Hm : forall st, let r := snd (markdown2html_marked env source "utf-8" st) in
                          _node r = _node st /\
                          probes (trace r) = probes (trace st) /\
                          warnings (trace r) = warnings (trace st))
    by (intros st; apply marked_quiet).
  assert (Hf : forall st,
             let r := snd (match mistune env with
                           | Some _ => markdown2html_mistune env source st
                           | None => markdown2html_pandoc env source st
                           end) in
             _node r = _node st /\
             probes (trace r) = probes (trace st) /\
             warnings (trace r) = warnings (trace st)).
  { intros st. destruct (mistune env);
      [apply mistune_quiet | apply pandoc_quiet]. }
  cbn zeta in Hm, Hf.
  destruct (fst (_verify_node env "nodejs" _)) as [[|]|];
    try (destruct (fst (_verify_node env "node" _)) as [[|]|]);
    match goal with
    | |- context [markdown2html_marked env source "utf-8" ?st] =>
        destruct (Hm st) as (-> & -> & ->)
    | |- context [markdown2html_mistune env source ?st] =>
        destruct (Hf st) as (-> & -> & ->)
    end;
    cbn [_node trace]; rewrite !probes_app, !warnings_app; cbn;
    repeat split; lia.
Qed.

(** X1.  Once [markdown2html] has fallen back, [_node] is [False] for the
    rest of the process, and a direct call of [markdown2html_marked] then
    fails with a [TypeError] without starting a child, whatever the source
    and the encoding and however many calls of [markdown2html] came in
    between. *)
Theorem marked_after_fallback_TypeError :
  forall (env : Env) (source : string) (s : state),
    _node s = PyNone ->
    fst (_verify_node env "nodejs" (mkState (PyStr "nodejs") (trace s)))
    = Return false ->
    fst (_verify_node env "node"
           (mkState (PyStr "node")
                    (trace s ++ [EvRun ["nodejs"; "--version"]])))
    = Return false ->
    forall later source' encoding,
      let s' := run_calls env later (snd (markdown2html env source s)) in
      _node s' = PyBool false /\
      markdown2html_marked env source' encoding s' = (Raise TypeError, s').
Proof.
  intros env source s Hn H1 H2 later source' encoding. cbn zeta.
  pose proof (markdown2html_first_state env source s Hn) as Hst.
  cbn zeta in Hst. rewrite H1 in Hst. cbn [trace] in Hst. rewrite H2 in Hst.
  destruct Hst as (Hnode & _ & _).
  assert (Hlater : _node (run_calls env later (snd (markdown2html env source s)))
                   = PyBool false).
  { rewrite (proj1 (run_calls_quiet env later _
                      (markdown2html_sets_node env source s))).
    exact Hnode. }
  split; [exact Hlater|].
  apply marked_run_not_str. rewrite Hlater. discriminate.
Qed.

Lemma marked_after_fallback_TypeError_witness :
  let s' := run_calls Sample.no_node ["## again"; "text"]
              (snd (markdown2html Sample.no_node "# Hi" Sample.start)) in
  _node s' = PyBool false /\
  markdown2html_marked Sample.no_node "# Hi" "utf-8" s'
  = (Raise TypeError, s').
Proof.
  apply (marked_after_fallback_TypeError Sample.no_node "# Hi" Sample.start
           eq_refl eq_refl eq_refl ["## again"; "text"] "# Hi" "utf-8").
Defined.

(** X2.  When [_node] holds a command name and the child cannot be started,
    [markdown2html] raises [NodeJSMissing] and tries nothing else: the only
    thing it did is the attempt to start the child, no probe, no warning, no
    call of pandoc, and [_node] keeps the command name, mistune and pandoc
    being installed or not. *)
Theorem markdown2html_no_fallback_after_selection :
  forall (env : Env) (source : string) (s : state) (n e : string),
    _node s = PyStr n ->
    n <> "" ->
    spawn env (trace s ++ [EvPopen [n; marked env]]) [n; marked env] = inl e ->
    exists msg,
      markdown2html env source s
      = (Raise (NodeJSMissing msg),
         mkState (PyStr n) (trace s ++ [EvPopen [n; marked env]])).
Proof.
  intros env source s n e Hn Hne Hsp.
  rewrite markdown2html_memoized by (rewrite Hn; discriminate).
  rewrite Hn. cbn [truthy].
  destruct (String.eqb_spec n "") as [->|_]; [contradiction|]. cbn [negb].
  rewrite (marked_run env source "utf-8" s n Hn). cbn zeta. cbn [trace].
  rewrite Hsp. eauto.
Qed.

Lemma markdown2html_no_fallback_after_selection_witness :
  exists msg,
    markdown2html Sample.no_node "# Hi" Sample.with_node
    = (Raise (NodeJSMissing msg),
       mkState (PyStr "node")
               (trace Sample.with_node
                ++ [EvPopen ["node"; marked Sample.no_node]])).
Proof.
  apply (markdown2html_no_fallback_after_selection
           Sample.no_node "# Hi" Sample.with_node "node"
           "[Errno 2] No such file or directory");
    [reflexivity | discriminate | reflexivity].
Defined.



(** X4.  When the first call of [markdown2html] finds a Node runtime, under
    [nodejs] or under [node], no call of the process ever emits a warning,
    the first one included. *)
Theorem no_warning_when_runtime_found :
  forall (env : Env) (source : string) (s : state),
    _node s = PyNone ->
    fst (_verify_node env "nodejs" (mkState (PyStr "nodejs") (trace s)))
    = Return true \/
    fst (_verify_node env "node"
           (mkState (PyStr "node")
                    (trace s ++ [EvRun ["nodejs"; "--version"]])))
    = Return true ->
    forall later,
      warnings (trace (run_calls env (source :: later) s)) = warnings (trace s).
Proof.
  intros env source s Hn Hfound later. cbn [run_calls].
  rewrite (proj2 (proj2 (run_calls_quiet env later _
                           (markdown2html_sets_node env source s)))).
  pose proof (markdown2html_first_state env source s Hn) as Hst.
  cbn zeta in Hst. cbn [trace] in Hst.
  destruct (fst (_verify_node env "nodejs" _)) as [[|]|];
    try (destruct (fst (_verify_node env "node" _)) as [[|]|]);
    try (exact (proj2 (proj2 Hst)));
    destruct Hfound; discriminate.
Qed.

Lemma no_warning_when_runtime_found_witness :
  warnings (trace (run_calls Sample.two_newlines ["# Hi"; "## again"; "text"]
                             Sample.start))
  = warnings (trace Sample.start).
Proof.
  apply (no_warning_when_runtime_found Sample.two_newlines "# Hi" Sample.start
           eq_refl (or_intror eq_refl) ["## again"; "text"]).
Defined.

(** ** The probe and the letter v *)

Lemma lstrip_replicate (c : ascii) (k : nat) (rest : string) :
  PyStr.lstrip c (PyStr.replicate k c ++ rest) = PyStr.lstrip c rest.
Proof.
  induction k as [|k IH]; [reflexivity|].
  cbn. now rewrite Ascii.eqb_refl.
Qed.

(** X5.  [_verify_node] drops every leading [v] of the version output, not
    only one: an output made of any number of [v]s followed by [rest] gets
    the answer the version comparison gives for [rest] without its own
    leading [v]s, so outputs that differ in their leading [v]s only get the
    same answer. *)
Theorem verify_node_drops_every_leading_v :
  forall (env : Env) (cmd : string) (s : state) (k : nat) (rest err : string),
    get_output_error_code env (trace s ++ [EvRun [cmd; "--version"]])
                          [cmd; "--version"]
    = inr (PyStr.replicate k "v" ++ rest, err, 0%Z) ->
    fst (_verify_node env cmd s)
    = Return (check_version env (PyStr.lstrip "v" rest) "0.9.12").
Proof.
  intros env cmd s k rest err H.
  rewrite verify_node_run. cbn zeta. cbn [fst trace]. rewrite H.
  cbn [Z.eqb negb]. now rewrite lstrip_replicate.
Qed.

Lemma verify_node_drops_every_leading_v_witness :
  fst (_verify_node (Sample.world ["node"] "vvv0.9.12" (inl "") None None)
                    "node" Sample.start)
  = Return (check_version (Sample.world ["node"] "vvv0.9.12" (inl "") None None)
                          (PyStr.lstrip "v" "0.9.12") "0.9.12").
Proof.
  apply (verify_node_drops_every_leading_v
           (Sample.world ["node"] "vvv0.9.12" (inl "") None None)
           "node" Sample.start 3 "0.9.12" "").
  reflexivity.
Defined.

(** ** More on the in-process parser *)




(** ** What the node renderer does to the outside world *)

(** X7.  With a command name in [_node], one call of [markdown2html_marked]
    tries to start exactly one child, with the command line made of that
    name and the path of [marked.js]; it writes to the child at most once,
    and what it writes is the source in the encoding asked for; it keeps
    [_node]; and when it returns, it has started the child and written the
    encoded source to it. *)
Theorem marked_one_child_one_write :
  forall (env : Env) (source encoding : string) (s : state) (n : string),
    _node s = PyStr n ->
    let r := markdown2html_marked env source encoding s in
    _node (snd r) = PyStr n /\
    (trace (snd r) = (trace s ++ [EvPopen [n; marked env]])%list \/
     exists input,
       cast_bytes env source encoding = Some input /\
       trace (snd r)
       = (trace s ++ [EvPopen [n; marked env]; EvCommunicate input])%list) /\
    (forall out,
        fst r = Return out ->
        exists input p,
          cast_bytes env source encoding = Some input /\
          spawn env (trace s ++ [EvPopen [n; marked env]]) [n; marked env]
          = inr p /\
          trace (snd r)
          = (trace s ++ [EvPopen [n; marked env]; EvCommunicate input])%list).
Proof.
  intros env source encoding s n Hn. cbn zeta.
  rewrite (marked_run env source encoding s n Hn). cbn zeta. cbn [trace].
  destruct (spawn env _ _) as [e|p]; cbn [fst snd _node trace].
  - split; [reflexivity|]. split; [now left|]. discriminate.
  - destruct (cast_bytes env source encoding) as [input|];
      cbn [fst snd _node trace].
    + assert (Ht : ((trace s ++ [EvPopen [n; marked env]])
                    ++ [EvCommunicate input])%list
                   = (trace s ++ [EvPopen [n; marked env];
                                  EvCommunicate input])%list)
        by now rewrite <- List.app_assoc.
      destruct (decode_replace env encoding _); cbn [fst snd _node trace];
        rewrite Ht; (split; [reflexivity|]); (split; [right; eauto|]).
      * intros out _. eauto.
      * discriminate.
    + split; [reflexivity|]. split; [now left|]. discriminate.
Qed.

Lemma marked_one_child_one_write_witness :
  let r := markdown2html_marked Sample.two_newlines "# Hi" "utf-8"
                                Sample.with_node in
  _node (snd r) = PyStr "node" /\
  (trace (snd r)
   = (trace Sample.with_node
      ++ [EvPopen ["node"; marked Sample.two_newlines]])%list \/
   exists input,
     cast_bytes Sample.two_newlines "# Hi" "utf-8" = Some input /\
     trace (snd r)
     = (trace Sample.with_node
        ++ [EvPopen ["node"; marked Sample.two_newlines];
            EvCommunicate input])%list) /\
  (forall out,
      fst r = Return out ->
      exists input p,
        cast_bytes Sample.two_newlines "# Hi" "utf-8" = Some input /\
        spawn Sample.two_newlines
              (trace Sample.with_node
               ++ [EvPopen ["node"; marked Sample.two_newlines]])
              ["node"; marked Sample.two_newlines]
        = inr p /\
        trace (snd r)
        = (trace Sample.with_node
           ++ [EvPopen ["node"; marked Sample.two_newlines];
               EvCommunicate input])%list).
Proof.
  apply (marked_one_child_one_write Sample.two_newlines "# Hi" "utf-8"
           Sample.with_node "node").
  reflexivity.
Defined.

(** ** Trailing newlines, backend by backend *)

Lemma endswith_app_last (a : string) (c : ascii) :
  PyStr.endswith (a ++ String c "") c = true.
Proof.
  induction a as [|x a IH]; cbn; [apply Ascii.eqb_refl|].
  destruct (a ++ String c "") eqn:E; [|exact IH].
  destruct a; discriminate.
Qed.

Lemma render_tokens_snoc (env : Env) (lib : Mistune)
      (pre : list token) (t : token) (out : string) :
  render_tokens env lib (pre ++ [t]) = Return out ->
  exists x b, render_tokens env lib pre = Return x /\
              render_token env lib t = Return b /\
              out = x ++ b.
Proof.
  revert out. induction pre as [|t' pre IH]; intros out;
    cbn [List.app render_tokens].
  - destruct (render_token env lib t) as [b|]; [|discriminate].
    intros [= <-]. exists "", b. now rewrite PyStrFacts.app_empty_r.
  - destruct (render_token env lib t') as [h|]; [|discriminate].
    destruct (render_tokens env lib (pre ++ [t])) as [r|]; [|discriminate].
    intros [= <-].
    destruct (IH r eq_refl) as (x & b & -> & Hb & ->).
    exists (h ++ x), b. now rewrite PyStrFacts.app_assoc.
Qed.

(** X8.  Unlike the node renderer, the in-process parser keeps the trailing
    newline: when the last token of the document is a code block without a
    language tag (tag [None] or the empty string) and the conversion
    returns, its result ends in the newline that closes the
    [<pre><code>] block. *)
Theorem mistune_keeps_trailing_newline :
  forall (env : Env) (lib : Mistune) (source : string) (s : state)
         (pre : list token) (code : string) (lang : option string)
         (out : string),
    mistune env = Some lib ->
    md_parse lib source = (pre ++ [TCode code lang])%list ->
    not_lang lang = true ->
    fst (markdown2html_mistune env source s) = Return out ->
    PyStr.endswith out PyStr.nl = true /\
    PyStr.rstrip PyStr.nl out <> out.
Proof.
  intros env lib source s pre code lang out Hlib Hparse Hlang.
  unfold markdown2html_mistune, lift. rewrite Hlib, Hparse. cbn [fst].
  intros Hout.
  destruct (render_tokens_snoc env lib pre _ out Hout) as (x & b & _ & Hb & ->).
  cbn [render_token] in Hb.
  rewrite block_code_untagged in Hb by exact Hlang. injection Hb as <-.
  match goal with
  | |- PyStr.endswith ?o _ = true /\ _ => set (result := o)
  end.
  assert (Hend : PyStr.endswith result PyStr.nl = true).
  { subst result.
    change (PyStr.endswith
              (x ++ String PyStr.nl "<pre><code>" ++ md_escape lib code
               ++ "</code></pre>" ++ String PyStr.nl "") PyStr.nl = true).
    rewrite <- !PyStrFacts.app_assoc. apply endswith_app_last. }
  split; [exact Hend|].
  intros Heq.
  pose proof (PyStrFacts.rstrip_no_trailing PyStr.nl result) as Hno.
  rewrite Heq in Hno. congruence.
Qed.

Lemma mistune_keeps_trailing_newline_witness :
  PyStr.endswith
    (String PyStr.nl "<pre><code>a&lt;b</code></pre>" ++ Sample.nl) PyStr.nl
  = true /\
  PyStr.rstrip PyStr.nl
    (String PyStr.nl "<pre><code>a&lt;b</code></pre>" ++ Sample.nl)
  <> String PyStr.nl "<pre><code>a&lt;b</code></pre>" ++ Sample.nl.
Proof.
  apply (mistune_keeps_trailing_newline
           Sample.no_node Sample.lib Sample.untagged_doc Sample.start
           [] "a<b" None); reflexivity.
Defined.
